(** * saved_model_half_plus_two.py: exporting the half-plus-two regression graph

    The script builds the graph [y = a*x + b] with [a = 0.5] and [b = 2.0]
    through the TensorFlow Python API and hands it to a [SavedModelBuilder].
    The script itself is embedded statement by statement in a state and
    exception monad over a [world] (object stores, default-graph stack, file
    system, and the trace of library calls). The library the script calls is
    not part of the source file; its operations are modelled below and marked
    as such. *)

From Stdlib Require Import QArith Reals Qreals Lra.
From stdpp Require Import base option list strings gmap pretty.

Set Default Proof Using "Type".
Local Open Scope string_scope.

(** ** Exceptions and the trace of library calls *)

Inductive exn :=
| KeyError (key : string)
| ValueError (msg : string)
| RuntimeError (msg : string)
| AssertionError (msg : string)
| InvalidArgumentError (msg : string)
| FailedPreconditionError (msg : string)
| UnimplementedError (msg : string)
| OSError (msg : string).

(** One constructor per library entry point the script uses, in the
    spelling of the source. *)
Inductive event :=
| call_SavedModelBuilder (export_dir : string)
| call_Graph
| call_Session
| call_Session_enter
| call_Session_exit
| call_Variable (name : string)
| call_placeholder (name : string)
| call_parse_example
| call_identity (name : option string)
| call_mul
| call_add (name : option string)
| call_TensorInfo
| call_build_signature_def (method_name : string)
| call_initialize_all_variables
| call_Session_run
| call_add_meta_graph_and_variables
| call_save (as_text : bool).

Inductive result (A : Type) :=
| Ok (a : A)
| Raise (e : exn).
Arguments Ok {A} a.
Arguments Raise {A} e.

Definition is_Ok {A} (r : result A) : bool :=
  match r with Ok _ => true | Raise _ => false end.

(** ** Arithmetic of the numeric kernels

    Tensors of type float32 hold elements of a carrier [T]; the [Mul] and
    [Add] kernels and the conversion of a Python float literal are the three
    operations the graph needs. Theorems are proved for every such
    structure; [Q_kernels] and [R_kernels] are the exact ones, over the
    rationals (which evaluate) and over the reals. *)
Class Kernels (T : Type) := {
  float_lit : Q -> T;
  kernel_mul : T -> T -> T;
  kernel_add : T -> T -> T
}.

Global Instance Q_kernels : Kernels Q := {|
  float_lit q := q;
  kernel_mul := Qmult;
  kernel_add := Qplus
|}.

Global Instance R_kernels : Kernels R := {|
  float_lit := Q2R;
  kernel_mul := Rmult;
  kernel_add := Rplus
|}.

Inductive dtype := float32 | tf_string.

Inductive encoding := Binary | Text.

(** [meta_graph_pb2.TensorInfo]: a message whose only field the script
    sets is [name]. *)
Record TensorInfo := { ti_name : string }.

(** A [SignatureDef] message: two dicts of [TensorInfo] and a method name. *)
Record SignatureDef := {
  sig_inputs : gmap string TensorInfo;
  sig_outputs : gmap string TensorInfo;
  sig_method_name : string
}.

(** A graph tensor: the operation producing it and the output index. *)
Record Tensor := { tensor_op : string; value_index : nat }.

(** [Tensor.name]: ["<op name>:<output index>"]. *)
Definition tensor_name (t : Tensor) : string :=
  tensor_op t +:+ ":" +:+ pretty (value_index t).

Section Framework.

Context {T : Type} `{HK : Kernels T}.

(** [constants.TAG_SERVING]: the constants module is not part of the source
    file; the tag is a parameter of the development. *)
Variable TAG_SERVING : string.

(** [tf.FixedLenFeature(shape, dtype, default_value=None)]. *)
Record FixedLenFeature := {
  fl_shape : list nat;
  fl_dtype : dtype;
  fl_default_value : option (list T)
}.

(** Modelled from the spec: the kinds of operation the calls of the script
    add to a graph, with the attributes that decide what they compute. *)
Inductive op_kind :=
| OpVariable (initial_value : T)
| OpPlaceholder (dt : dtype)
| OpParseExample (dense : list (string * FixedLenFeature))
| OpIdentity
| OpMul
| OpAdd
| OpInit (targets : list string).

(** Modelled from the spec: an operation of a graph. *)
Record Operation := {
  op_name : string;
  op_type : op_kind;
  op_inputs : list Tensor
}.

(** Modelled from the spec: a graph under construction, with the names
    already given out. *)
Record Graph := {
  nodes : list Operation;
  names_in_use : gmap string nat
}.

Definition empty_graph : Graph := {| nodes := []; names_in_use := ∅ |}.

(** Modelled from the spec: a session on a graph, with the values its
    variables hold. *)
Record Session := {
  sess_graph : nat;
  sess_vars : gmap string T;
  sess_closed : bool
}.

(** Modelled from the spec: a graph definition with its tags and its named
    signatures. *)
Record MetaGraphDef := {
  meta_tags : list string;
  graph_def : list Operation;
  signature_def : gmap string SignatureDef
}.

(** Modelled from the spec: the state of a builder object. *)
Record SavedModelBuilder := {
  b_export_dir : string;
  b_meta_graphs : list MetaGraphDef;
  b_has_saved_variables : bool
}.

(** Modelled from the spec: what an export directory holds ("graph
    definition + variable checkpoint + one named signature"): the SavedModel
    message with its encoding, and the variable checkpoint. *)
Record Bundle := {
  saved_model : option (encoding * list MetaGraphDef);
  variables : option (gmap string T)
}.

Definition empty_bundle : Bundle := {| saved_model := None; variables := None |}.

(** The file system, as far as the builder uses it: export directories
    that are read and written whole. Any store in which a read returns the
    last write will do; [gmap_fs] is the one used for evaluation. *)
Class FileSystem (FS : Type) := {
  fs_read : FS -> string -> option Bundle;
  fs_write : string -> Bundle -> FS -> FS;
  fs_read_write_eq : forall d b m, fs_read (fs_write d b m) d = Some b;
  fs_read_write_ne : forall d d' b m, d <> d' -> fs_read (fs_write d b m) d' = fs_read m d';
  fs_write_write : forall d b b' m, fs_write d b' (fs_write d b m) = fs_write d b' m
}.

Global Instance gmap_fs : FileSystem (gmap string Bundle) := {|
  fs_read m d := m !! d;
  fs_write d b m := <[d := b]> m;
  fs_read_write_eq d b m := lookup_insert_eq m d b;
  fs_read_write_ne d d' b m := lookup_insert_ne m d d' b;
  fs_write_write d b b' m := insert_insert_eq m d b' b
|}.

Context {FS : Type} `{HFS : FileSystem FS}.

(** ** The world the script runs in *)
Record world := {
  faults : list (option exn);
  log : list event;
  graphs : list Graph;
  sessions : list Session;
  builders : list SavedModelBuilder;
  default_graph_stack : list nat;
  default_session_stack : list nat;
  fs : FS
}.

Definition set_faults (p : list (option exn)) (w : world) : world :=
  {| faults := p; log := log w; graphs := graphs w; sessions := sessions w;
     builders := builders w; default_graph_stack := default_graph_stack w;
     default_session_stack := default_session_stack w; fs := fs w |}.

Definition set_log (l : list event) (w : world) : world :=
  {| faults := faults w; log := l; graphs := graphs w; sessions := sessions w;
     builders := builders w; default_graph_stack := default_graph_stack w;
     default_session_stack := default_session_stack w; fs := fs w |}.

Definition set_graphs (gs : list Graph) (w : world) : world :=
  {| faults := faults w; log := log w; graphs := gs; sessions := sessions w;
     builders := builders w; default_graph_stack := default_graph_stack w;
     default_session_stack := default_session_stack w; fs := fs w |}.

Definition set_sessions (ss : list Session) (w : world) : world :=
  {| faults := faults w; log := log w; graphs := graphs w; sessions := ss;
     builders := builders w; default_graph_stack := default_graph_stack w;
     default_session_stack := default_session_stack w; fs := fs w |}.

Definition set_builders (bs : list SavedModelBuilder) (w : world) : world :=
  {| faults := faults w; log := log w; graphs := graphs w; sessions := sessions w;
     builders := bs; default_graph_stack := default_graph_stack w;
     default_session_stack := default_session_stack w; fs := fs w |}.

Definition set_default_stacks (gs ss : list nat) (w : world) : world :=
  {| faults := faults w; log := log w; graphs := graphs w; sessions := sessions w;
     builders := builders w; default_graph_stack := gs;
     default_session_stack := ss; fs := fs w |}.

Definition set_fs (f : FS) (w : world) : world :=
  {| faults := faults w; log := log w; graphs := graphs w; sessions := sessions w;
     builders := builders w; default_graph_stack := default_graph_stack w;
     default_session_stack := default_session_stack w; fs := f |}.

(** A freshly started interpreter: handle 0 is the process-wide default
    graph, nothing has been called yet. [plan] says, library call after
    library call, whether the library raises there ([Some e]) or does its
    work ([None]); calls beyond the end of the plan do their work. [disk] is
    the file system found at start. *)
Definition boot (plan : list (option exn)) (disk : FS) : world :=
  {| faults := plan; log := []; graphs := [empty_graph]; sessions := [];
     builders := []; default_graph_stack := []; default_session_stack := [];
     fs := disk |}.

Definition no_faults : list (option exn) := [].

(** ** State and exception monad *)
Definition M (A : Type) : Type := world -> result A * world.

Definition ret {A} (a : A) : M A := fun w => (Ok a, w).

Definition bind {A B} (m : M A) (k : A -> M B) : M B := fun w =>
  match m w with
  | (Ok a, w') => k a w'
  | (Raise e, w') => (Raise e, w')
  end.

Definition raise {A} (e : exn) : M A := fun w => (Raise e, w).

Definition get_world : M world := fun w => (Ok w, w).

Definition modify (f : world -> world) : M unit := fun w => (Ok tt, f w).

Definition lift_option {A} (o : option A) (e : exn) : M A :=
  match o with Some a => ret a | None => raise e end.

Definition lift_result {A} (r : result A) : M A :=
  match r with Ok a => ret a | Raise e => raise e end.


Notation "x <- m ;; k" := (bind m (fun x => k))
  (at level 100, m at next level, right associativity, only parsing).
Notation "m ;;; k" := (bind m (fun _ => k))
  (at level 100, right associativity, only parsing).

(** A call into the library: the call is recorded in the trace, and the
    next entry of the fault plan decides whether the library raises there
    instead of doing its work. *)
Definition call {A} (ev : event) (body : M A) : M A := fun w =>
  let w' := set_log (log w ++ [ev]) w in
  match faults w with
  | Some e :: rest => (Raise e, set_faults rest w')
  | None :: rest => body (set_faults rest w')
  | [] => body w'
  end.

(** Python's [with mgr as v: body]: [__enter__] runs first; [__exit__] runs
    whether [body] returns or raises, and, returning [None] as the context
    managers used here do, lets the exception pass. *)
Definition with_ {A B} (enter : M A) (exit_ : M unit) (body : A -> M B) : M B :=
  v <- enter ;;
  fun w =>
    let '(r, w1) := body v w in
    match exit_ w1 with
    | (Ok _, w2) => (r, w2)
    | (Raise e, w2) => (Raise e, w2)
    end.

(** Python's [d[key]] on a dict. *)
Definition getitem {A} (d : gmap string A) (key : string) : M A :=
  lift_option (d !! key) (KeyError key).

(** ** Graph construction *)

(** Modelled from the spec: the spec names the entities of the graph but not
    the library's naming rule; [Graph.unique_name] is the library's: a name
    is used as given the first time, and suffixed with [_<i>] for the first
    free [i] afterwards. [probe] is its [while] loop, bounded by the number
    of names in use. *)
Fixpoint probe (used : gmap string nat) (base : string) (i fuel : nat) : option string :=
  match fuel with
  | O => None
  | S fuel' =>
      let name := base +:+ "_" +:+ pretty i in
      match used !! name with
      | Some _ => probe used base (S i) fuel'
      | None => Some name
      end
  end.

(** Modelled from the spec: see [probe]. *)
Definition unique_name (g : Graph) (name : string) : option (string * gmap string nat) :=
  let i := default 0 (names_in_use g !! name) in
  let used := <[name := S i]> (names_in_use g) in
  match i with
  | O => Some (name, used)
  | S _ =>
      match probe used name i (S (size used)) with
      | Some name' => Some (name', <[name' := 1]> used)
      | None => None
      end
  end.

Definition get_default_graph (w : world) : nat := hd 0 (default_graph_stack w).

(** Modelled from the spec: adding an operation of kind [k] to the default
    graph under a name derived from [name]; the result handle is the
    operation's name. Auxiliary nodes the library creates inside the
    operation's own name scope are not represented. *)
Definition create_op (name : string) (k : op_kind) (inputs : list Tensor) : M string :=
  w <- get_world ;;
  let gid := get_default_graph w in
  g <- lift_option (graphs w !! gid) (RuntimeError "no default graph") ;;
  nu <- lift_option (unique_name g name) (RuntimeError "unique_name") ;;
  let op := {| op_name := fst nu; op_type := k; op_inputs := inputs |} in
  modify (set_graphs (<[gid := {| nodes := nodes g ++ [op]; names_in_use := snd nu |}]> (graphs w))) ;;;
  ret (fst nu).

Definition output (op : string) (i : nat) : Tensor :=
  {| tensor_op := op; value_index := i |}.

(** Modelled from the spec: [tf.Graph()] allocates an empty graph. *)
Definition tf_Graph : M nat :=
  call call_Graph (
    w <- get_world ;;
    modify (set_graphs (graphs w ++ [empty_graph])) ;;;
    ret (length (graphs w))).

(** Modelled from the spec: [tf.Session(graph=g)] allocates an open session
    on [g] in which no variable holds a value yet. *)
Definition tf_Session (graph : nat) : M nat :=
  call call_Session (
    w <- get_world ;;
    modify (set_sessions (sessions w ++
      [{| sess_graph := graph; sess_vars := ∅; sess_closed := false |}])) ;;;
    ret (length (sessions w))).

(** Modelled from the spec: [Session.__enter__] makes the session and its
    graph the defaults ("open a computation context") and returns the
    session. *)
Definition Session_enter (sess : nat) : M nat :=
  call call_Session_enter (
    w <- get_world ;;
    s <- lift_option (sessions w !! sess) (RuntimeError "no such session") ;;
    modify (set_default_stacks (sess_graph s :: default_graph_stack w)
                               (sess :: default_session_stack w)) ;;;
    ret sess).

(** Modelled from the spec: [Session.__exit__] restores the previous
    defaults and closes the session. *)
Definition Session_exit (sess : nat) : M unit := fun w =>
  let w1 := set_log (log w ++ [call_Session_exit]) w in
  let w2 := set_default_stacks (tail (default_graph_stack w1))
                               (tail (default_session_stack w1)) w1 in
  let close s := {| sess_graph := sess_graph s; sess_vars := sess_vars s;
                    sess_closed := true |} in
  (Ok tt, set_sessions (alter close sess (sessions w2)) w2).

(** Modelled from the spec: [tf.Variable(initial_value, name=...)], a named
    scalar parameter. *)
Definition tf_Variable (initial_value : T) (name : string) : M Tensor :=
  call (call_Variable name) (
    op <- create_op name (OpVariable initial_value) [] ;;
    ret (output op 0)).

(** Modelled from the spec: [tf.placeholder(dtype, name=...)], a named
    input to be fed at run time. *)
Definition tf_placeholder (dt : dtype) (name : string) : M Tensor :=
  call (call_placeholder name) (
    op <- create_op name (OpPlaceholder dt) [] ;;
    ret (output op 0)).

(** Modelled from the spec: [tf.parse_example(serialized, features)] adds
    one decoding operation, with one output per key of the [features] dict,
    and returns a dict from feature key to the output decoded for it. *)
Definition tf_parse_example (serialized : Tensor)
    (features : gmap string FixedLenFeature) : M (gmap string Tensor) :=
  call call_parse_example (
    let dense := map_to_list features in
    op <- create_op "ParseExample/ParseExample" (OpParseExample dense) [serialized] ;;
    ret (list_to_map (imap (fun i kv => (fst kv, output op i)) dense))).

(** Modelled from the spec: [tf.identity(input, name=None)]; without a name
    the operation is named after its type. *)
Definition tf_identity (input : Tensor) (name : option string) : M Tensor :=
  call (call_identity name) (
    op <- create_op (default "Identity" name) OpIdentity [input] ;;
    ret (output op 0)).

(** Modelled from the spec: [tf.mul(x, y, name=None)]. *)
Definition tf_mul (x y : Tensor) : M Tensor :=
  call call_mul (
    op <- create_op "Mul" OpMul [x; y] ;;
    ret (output op 0)).

(** Modelled from the spec: [tf.add(x, y, name=None)]. *)
Definition tf_add (x y : Tensor) (name : option string) : M Tensor :=
  call (call_add name) (
    op <- create_op (default "Add" name) OpAdd [x; y] ;;
    ret (output op 0)).

Definition is_variable (op : Operation) : bool :=
  match op_type op with OpVariable _ => true | _ => false end.

(** Modelled from the spec: [tf.initialize_all_variables()] adds one
    operation that, when run, assigns its initial value to every variable
    the default graph holds at that moment. *)
Definition tf_initialize_all_variables : M string :=
  call call_initialize_all_variables (
    w <- get_world ;;
    g <- lift_option (graphs w !! get_default_graph w) (RuntimeError "no default graph") ;;
    create_op "init" (OpInit (op_name <$> filter (fun op => is_variable op = true) (nodes g))) []).

(** Modelled from the spec: [meta_graph_pb2.TensorInfo()], a message with an
    empty name. *)
Definition new_TensorInfo : M TensorInfo :=
  call call_TensorInfo (ret {| ti_name := "" |}).

(** Assignment to the [name] field of a [TensorInfo]. *)
Definition set_name (ti : TensorInfo) (name : string) : TensorInfo :=
  {| ti_name := name |}.

(** Modelled from the spec: [utils.build_signature_def(inputs, outputs,
    method_name)] packs its arguments into a [SignatureDef]. *)
Definition build_signature_def (inputs outputs : gmap string TensorInfo)
    (method_name : string) : M SignatureDef :=
  call (call_build_signature_def method_name) (
    ret {| sig_inputs := inputs; sig_outputs := outputs;
           sig_method_name := method_name |}).

(** ** Running a graph *)

(** Modelled from the spec: a record ([tf.train.Example]) holds named
    features, each one list of values. *)
Inductive Feature :=
| float_list (value : list T)
| bytes_list (value : list string)
| int64_list (value : list Z).

(** Modelled from the spec: an element of a string tensor is the
    serialization of a record, or bytes that are not one. The byte encoding
    itself is not represented. *)
Inductive tfstring :=
| serialized_Example (features : gmap string Feature)
| raw_bytes (s : string).

Inductive value :=
| scalar (x : T)
| matrix (rows : list (list T))
| strings (l : list tfstring).

Inductive fetch :=
| fetch_op (name : string)
| fetch_tensor (t : Tensor).

Fixpoint all_ok {A} (l : list (result A)) : result (list A) :=
  match l with
  | [] => Ok []
  | Ok a :: l' =>
      match all_ok l' with Ok r => Ok (a :: r) | Raise e => Raise e end
  | Raise e :: _ => Raise e
  end.

Definition result_map {A B} (f : A -> B) (r : result A) : result B :=
  match r with Ok a => Ok (f a) | Raise e => Raise e end.

(** Modelled from the spec: decoding one fixed-length feature from one
    serialized record ("decode a feature field from a serialized-record
    input"). A missing feature is replaced by the default when there is one;
    otherwise, and when the feature has another type or another number of
    values than the shape asks for, decoding fails. Only float32 features
    are decoded. *)
Definition parse_dense (key : string) (cfg : FixedLenFeature) (s : tfstring)
    : result (list T) :=
  match s with
  | raw_bytes _ => Raise (InvalidArgumentError "Could not parse example input")
  | serialized_Example features =>
      match fl_dtype cfg with
      | tf_string => Raise (UnimplementedError "dense string feature")
      | float32 =>
          match features !! key with
          | None =>
              match fl_default_value cfg with
              | Some d => Ok d
              | None => Raise (InvalidArgumentError
                                 "Feature is required but could not be found")
              end
          | Some (float_list l) =>
              if decide (length l = foldr Nat.mul 1 (fl_shape cfg)) then Ok l
              else Raise (InvalidArgumentError "Number of float values != expected")
          | Some _ => Raise (InvalidArgumentError "Data types do not match")
          end
      end
  end.

(** Modelled from the spec: the element-wise kernels on scalars and on
    batches of rows; a scalar operand is broadcast. *)
Definition broadcast (f : T -> T -> T) (u v : value) : result value :=
  match u, v with
  | scalar a, scalar b => Ok (scalar (f a b))
  | scalar a, matrix m => Ok (matrix (map (map (f a)) m))
  | matrix m, scalar b => Ok (matrix (map (map (fun x => f x b)) m))
  | matrix m, matrix n =>
      if decide (map length m = map length n)
      then Ok (matrix (zip_with (zip_with f) m n))
      else Raise (InvalidArgumentError "Incompatible shapes")
  | _, _ => Raise (InvalidArgumentError "numeric operand expected")
  end.

Definition lift2 (f : value -> value -> result value) (u v : result value)
    : result value :=
  match u, v with
  | Ok a, Ok b => f a b
  | Raise e, _ => Raise e
  | _, Raise e => Raise e
  end.

Definition input_value (env : gmap string (result value)) (t : Tensor) : result value :=
  match env !! tensor_name t with
  | Some r => r
  | None => Raise (ValueError "tensor is not an element of this graph")
  end.

Definition has_dtype (dt : dtype) (v : value) : bool :=
  match dt, v with
  | tf_string, strings _ => true
  | float32, scalar _ => true
  | float32, matrix _ => true
  | _, _ => false
  end.

(** Modelled from the spec: one dense output of the decoding operation: a
    row per record of the batch; one failing record fails the batch. *)
Definition decode_dense (key : string) (cfg : FixedLenFeature) (serialized : result value)
    : result value :=
  match serialized with
  | Ok (strings batch) => result_map matrix (all_ok (map (parse_dense key cfg) batch))
  | Ok _ => Raise (InvalidArgumentError "string tensor expected")
  | Raise e => Raise e
  end.

(** Modelled from the spec: what each kind of operation computes, one
    result per output. An operation whose input failed fails the same way,
    so that only what a fetch depends on decides the fetch. *)
Definition eval_op (vars : gmap string T) (feed_dict : gmap string value)
    (env : gmap string (result value)) (op : Operation) : list (result value) :=
  match op_type op, op_inputs op with
  | OpVariable _, [] =>
      [match vars !! op_name op with
       | Some x => Ok (scalar x)
       | None => Raise (FailedPreconditionError "Attempting to use uninitialized value")
       end]
  | OpPlaceholder dt, [] =>
      [match feed_dict !! tensor_name (output (op_name op) 0) with
       | Some v =>
           if has_dtype dt v then Ok v
           else Raise (InvalidArgumentError "fed value has the wrong type")
       | None => Raise (InvalidArgumentError "You must feed a value for placeholder tensor")
       end]
  | OpParseExample dense, [serialized] =>
      map (fun kv => decode_dense (fst kv) (snd kv) (input_value env serialized)) dense
  | OpIdentity, [t] => [input_value env t]
  | OpMul, [x; y] =>
      [lift2 (broadcast kernel_mul) (input_value env x) (input_value env y)]
  | OpAdd, [x; y] =>
      [lift2 (broadcast kernel_add) (input_value env x) (input_value env y)]
  | OpInit _, [] => []
  | _, _ => [Raise (InvalidArgumentError "wrong number of inputs")]
  end.

Definition bind_outputs (op : string) (outs : list (result value))
    (env : gmap string (result value)) : gmap string (result value) :=
  foldr (fun ir e => <[tensor_name (output op (fst ir)) := snd ir]> e) env
        (imap pair outs).

(** Modelled from the spec: running a graph. Its operations are listed in
    construction order, so every input is computed before its consumers. *)
Definition eval_graph (vars : gmap string T) (feed_dict : gmap string value)
    (ops : list Operation) : gmap string (result value) :=
  fold_left (fun env op => bind_outputs (op_name op) (eval_op vars feed_dict env op) env)
            ops ∅.

(** The operation of a graph with a given name. *)
Definition find_op (ops : list Operation) (name : string) : option Operation :=
  List.find (fun op => bool_decide (op_name op = name)) ops.

Definition initial_value_of (ops : list Operation) (name : string) : option T :=
  match find_op ops name with
  | Some op => match op_type op with OpVariable v => Some v | _ => None end
  | None => None
  end.

(** Modelled from the spec: running the initializer ("initialize
    parameters"): every target variable gets its initial value. *)
Definition run_init (ops : list Operation) (targets : list string)
    (vars : gmap string T) : gmap string T :=
  fold_left (fun vs name =>
               match initial_value_of ops name with
               | Some v => <[name := v]> vs
               | None => vs
               end) targets vars.

(** Modelled from the spec: [Session.run(fetches, feed_dict)]. Fetching an
    operation runs it and returns [None]; fetching a tensor returns its
    value. Running the initializer gives every variable its initial value in
    this session. *)
Definition Session_run (sess : nat) (fetches : fetch) (feed_dict : gmap string value)
    : M (option value) :=
  call call_Session_run (
    w <- get_world ;;
    s <- lift_option (sessions w !! sess) (RuntimeError "no such session") ;;
    match sess_closed s with
    | true => raise (RuntimeError "Attempted to use a closed Session.")
    | false =>
        g <- lift_option (graphs w !! sess_graph s) (RuntimeError "no such graph") ;;
        match fetches with
        | fetch_tensor t =>
            v <- lift_result (input_value (eval_graph (sess_vars s) feed_dict (nodes g)) t) ;;
            ret (Some v)
        | fetch_op name =>
            op <- lift_option (find_op (nodes g) name)
                    (ValueError "operation is not an element of this graph") ;;
            match op_type op with
            | OpInit targets =>
                modify (set_sessions (<[sess :=
                  {| sess_graph := sess_graph s;
                     sess_vars := run_init (nodes g) targets (sess_vars s);
                     sess_closed := false |}]> (sessions w))) ;;;
                ret None
            | _ =>
                lift_result (all_ok (eval_op (sess_vars s) feed_dict
                   (eval_graph (sess_vars s) feed_dict (nodes g)) op)) ;;;
                ret None
            end
        end
    end).

(** ** The SavedModel builder and loader *)

(** Modelled from the spec: [SavedModelBuilder(export_dir)] remembers the
    directory the bundle goes to. *)
Definition new_SavedModelBuilder (export_dir : string) : M nat :=
  call (call_SavedModelBuilder export_dir) (
    w <- get_world ;;
    modify (set_builders (builders w ++
      [{| b_export_dir := export_dir; b_meta_graphs := [];
          b_has_saved_variables := false |}])) ;;;
    ret (length (builders w))).

(** Modelled from the spec: the values to be written as the checkpoint;
    there is none when a variable has no value yet. *)
Fixpoint checkpoint_of (vars : gmap string T) (names : list string)
    : option (list (string * T)) :=
  match names with
  | [] => Some []
  | n :: names' =>
      match vars !! n, checkpoint_of vars names' with
      | Some v, Some r => Some ((n, v) :: r)
      | _, _ => None
      end
  end.

(** Modelled from the spec: [add_meta_graph_and_variables(sess, tags,
    signature_def_map)] writes the values the variables of the default graph
    hold in [sess] as the checkpoint of the export directory, and keeps the
    default graph with the tags and the signatures as a meta graph to be
    written by [save]. A variable without a value makes it fail. *)
Definition add_meta_graph_and_variables (builder sess : nat) (tags : list string)
    (signature_def_map : gmap string SignatureDef) : M unit :=
  call call_add_meta_graph_and_variables (
    w <- get_world ;;
    b <- lift_option (builders w !! builder) (RuntimeError "no such builder") ;;
    match b_has_saved_variables b with
    | true => raise (AssertionError "Variables and assets have already been saved.")
    | false =>
        s <- lift_option (sessions w !! sess) (RuntimeError "no such session") ;;
        match sess_closed s with
        | true => raise (RuntimeError "Attempted to use a closed Session.")
        | false =>
            g <- lift_option (graphs w !! get_default_graph w)
                   (RuntimeError "no default graph") ;;
            ckpt <- lift_option
                      (checkpoint_of (sess_vars s)
                         (op_name <$> filter (fun op => is_variable op = true) (nodes g)))
                      (FailedPreconditionError "Attempting to use uninitialized value") ;;
            let mg := {| meta_tags := tags; graph_def := nodes g;
                         signature_def := signature_def_map |} in
            let old := default empty_bundle (fs_read (fs w) (b_export_dir b)) in
            modify (set_fs (fs_write (b_export_dir b)
                       {| saved_model := saved_model old;
                          variables := Some (list_to_map ckpt) |} (fs w))) ;;;
            modify (set_builders (<[builder :=
                       {| b_export_dir := b_export_dir b;
                          b_meta_graphs := b_meta_graphs b ++ [mg];
                          b_has_saved_variables := true |}]> (builders w)))
        end
    end).

(** Modelled from the spec: [save(as_text=False)] writes the meta graphs
    collected so far to the export directory, in text or binary encoding. *)
Definition save (builder : nat) (as_text : bool) : M unit :=
  call (call_save as_text) (
    w <- get_world ;;
    b <- lift_option (builders w !! builder) (RuntimeError "no such builder") ;;
    let old := default empty_bundle (fs_read (fs w) (b_export_dir b)) in
    modify (set_fs (fs_write (b_export_dir b)
               {| saved_model := Some (if as_text then Text else Binary, b_meta_graphs b);
                  variables := variables old |} (fs w)))).

Definition find_meta_graph (tags : list string) (mgs : list MetaGraphDef)
    : option MetaGraphDef :=
  List.find (fun mg => bool_decide (meta_tags mg = tags)) mgs.

(** Modelled from the spec: "loading the written bundle and feeding it":
    the meta graph with the given tags is run with the variables restored
    from the checkpoint. *)
Definition load_and_run (b : Bundle) (tags : list string)
    (feed_dict : gmap string value) (fetch_name : string) : result value :=
  match saved_model b, variables b with
  | Some (_, mgs), Some ckpt =>
      match find_meta_graph tags mgs with
      | Some mg =>
          match eval_graph ckpt feed_dict (graph_def mg) !! fetch_name with
          | Some r => r
          | None => Raise (ValueError "tensor is not an element of this graph")
          end
      | None => Raise (RuntimeError "no MetaGraphDef with these tags")
      end
  | _, _ => Raise (OSError "SavedModel file does not exist")
  end.

(** Modelled from the spec: serving a signature of a loaded bundle: the
    tensor named under role [in_role] is fed, the one named under [out_role]
    is fetched. *)
Definition run_signature (b : Bundle) (tags : list string) (key in_role out_role : string)
    (input : value) : result value :=
  match saved_model b with
  | Some (_, mgs) =>
      match find_meta_graph tags mgs with
      | Some mg =>
          match signature_def mg !! key with
          | Some sd =>
              match sig_inputs sd !! in_role, sig_outputs sd !! out_role with
              | Some i, Some o =>
                  load_and_run b tags {[ti_name i := input]} (ti_name o)
              | _, _ => Raise (KeyError "role")
              end
          | None => Raise (KeyError key)
          end
      | None => Raise (RuntimeError "no MetaGraphDef with these tags")
      end
  | None => Raise (OSError "SavedModel file does not exist")
  end.

(** ** The script *)

(** [with tf.Session(graph=tf.Graph()) as sess: body]. *)
Definition with_Session {A} (body : nat -> M A) : M A :=
  graph <- tf_Graph ;;
  mgr <- tf_Session graph ;;
  with_ (Session_enter mgr) (Session_exit mgr) body.

(** [tf.FixedLenFeature(shape, dtype=...)], default value [None]. *)
Definition tf_FixedLenFeature (shape : list nat) (dt : dtype) : FixedLenFeature :=
  {| fl_shape := shape; fl_dtype := dt; fl_default_value := None |}.

(** [_generate_saved_model_for_half_plus_two(export_dir, as_text=False)],
    lines 40 to 83 of the source, one binding per statement. *)
Definition _generate_saved_model_for_half_plus_two
    (export_dir : string) (as_text : bool) : M unit :=
  builder <- new_SavedModelBuilder export_dir ;;
  with_Session (fun sess =>
    a <- tf_Variable (float_lit (1 # 2)) "a" ;;
    b <- tf_Variable (float_lit 2) "b" ;;
    serialized_tf_example <- tf_placeholder tf_string "tf_example" ;;
    let feature_configs : gmap string FixedLenFeature :=
      {["x" := tf_FixedLenFeature [1] float32]} in
    tf_example <- tf_parse_example serialized_tf_example feature_configs ;;
    tf_example_x <- getitem tf_example "x" ;;
    x <- tf_identity tf_example_x (Some "x") ;;
    ax <- tf_mul a x ;;
    y <- tf_add ax b (Some "y") ;;
    input_tensor <- new_TensorInfo ;;
    let input_tensor := set_name input_tensor (tensor_name serialized_tf_example) in
    let signature_inputs : gmap string TensorInfo := {["input" := input_tensor]} in
    output_tensor <- new_TensorInfo ;;
    y_identity <- tf_identity y None ;;
    let output_tensor := set_name output_tensor (tensor_name y_identity) in
    let signature_outputs : gmap string TensorInfo := {["output" := output_tensor]} in
    signature_def <- build_signature_def signature_inputs signature_outputs "regression" ;;
    init <- tf_initialize_all_variables ;;
    Session_run sess (fetch_op init) ∅ ;;;
    add_meta_graph_and_variables builder sess [TAG_SERVING]
      {["regression" := signature_def]} ;;;
    save builder as_text).

(** [main(_)], lines 86 to 91: the argument is not used. *)
Definition main (argv : list string) : M unit :=
  let export_dir_pb := "/tmp/saved_model/half_plus_two" in
  _generate_saved_model_for_half_plus_two export_dir_pb false ;;;
  let export_dir_pbtxt := "/tmp/saved_model/half_plus_two_pbtxt" in
  _generate_saved_model_for_half_plus_two export_dir_pbtxt true.

(** ** What a run is expected to leave behind *)

Definition run_export (plan : list (option exn)) (disk : FS)
    (export_dir : string) (as_text : bool) : result unit * world :=
  _generate_saved_model_for_half_plus_two export_dir as_text (boot plan disk).

(** The library calls of one export, in order. *)
Definition nominal_trace (export_dir : string) (as_text : bool) : list event :=
  [ call_SavedModelBuilder export_dir; call_Graph; call_Session; call_Session_enter;
    call_Variable "a"; call_Variable "b"; call_placeholder "tf_example";
    call_parse_example; call_identity (Some "x"); call_mul; call_add (Some "y");
    call_TensorInfo; call_TensorInfo; call_identity None;
    call_build_signature_def "regression"; call_initialize_all_variables;
    call_Session_run; call_add_meta_graph_and_variables; call_save as_text;
    call_Session_exit ].

(** The operations of the graph, in construction order. *)
Definition half_plus_two_nodes : list Operation :=
  [ {| op_name := "a"; op_type := OpVariable (float_lit (1 # 2)); op_inputs := [] |};
    {| op_name := "b"; op_type := OpVariable (float_lit 2); op_inputs := [] |};
    {| op_name := "tf_example"; op_type := OpPlaceholder tf_string; op_inputs := [] |};
    {| op_name := "ParseExample/ParseExample";
       op_type := OpParseExample [("x", tf_FixedLenFeature [1] float32)];
       op_inputs := [output "tf_example" 0] |};
    {| op_name := "x"; op_type := OpIdentity;
       op_inputs := [output "ParseExample/ParseExample" 0] |};
    {| op_name := "Mul"; op_type := OpMul; op_inputs := [output "a" 0; output "x" 0] |};
    {| op_name := "y"; op_type := OpAdd; op_inputs := [output "Mul" 0; output "b" 0] |};
    {| op_name := "Identity"; op_type := OpIdentity; op_inputs := [output "y" 0] |};
    {| op_name := "init"; op_type := OpInit ["a"; "b"]; op_inputs := [] |} ].

Definition regression_signature : SignatureDef :=
  {| sig_inputs := {["input" := {| ti_name := "tf_example:0" |}]};
     sig_outputs := {["output" := {| ti_name := "Identity:0" |}]};
     sig_method_name := "regression" |}.

Definition half_plus_two_meta_graph : MetaGraphDef :=
  {| meta_tags := [TAG_SERVING]; graph_def := half_plus_two_nodes;
     signature_def := {["regression" := regression_signature]} |}.

Definition half_plus_two_checkpoint : gmap string T :=
  <["a" := float_lit (1 # 2)]> (<["b" := float_lit 2]> ∅).

Definition exported_bundle (as_text : bool) : Bundle :=
  {| saved_model := Some (if as_text then Text else Binary, [half_plus_two_meta_graph]);
     variables := Some half_plus_two_checkpoint |}.

(** The world after one export from a fresh interpreter. *)
Definition exported_world (plan : list (option exn)) (disk : FS)
    (export_dir : string) (as_text : bool) : world :=
  {| faults := plan;
     log := nominal_trace export_dir as_text;
     graphs := [ empty_graph;
                 {| nodes := half_plus_two_nodes;
                    names_in_use := list_to_map ((fun op => (op_name op, 1)) <$> half_plus_two_nodes) |} ];
     sessions := [ {| sess_graph := 1; sess_vars := half_plus_two_checkpoint;
                      sess_closed := true |} ];
     builders := [ {| b_export_dir := export_dir;
                      b_meta_graphs := [half_plus_two_meta_graph];
                      b_has_saved_variables := true |} ];
     default_graph_stack := [];
     default_session_stack := [];
     fs := fs_write export_dir (exported_bundle as_text) disk |}.

(** The file system as the two builder calls leave it, before
    simplification. *)
Definition written (disk : FS) (export_dir : string) (as_text : bool) : FS :=
  let disk1 :=
    fs_write export_dir
      {| saved_model := saved_model (default empty_bundle (fs_read disk export_dir));
         variables := Some half_plus_two_checkpoint |} disk in
  fs_write export_dir
    {| saved_model := Some (if as_text then Text else Binary, [half_plus_two_meta_graph]);
       variables := variables (default empty_bundle (fs_read disk1 export_dir)) |}
    disk1.

(** The first of the next [n] calls at which the plan makes the library
    raise, counting from [from]. *)
Fixpoint first_fault (plan : list (option exn)) (from n : nat) {struct n}
    : option (nat * exn) :=
  match n, plan with
  | S n', Some e :: _ => Some (from, e)
  | S n', None :: plan' => first_fault plan' (S from) n'
  | _, _ => None
  end.

Definition trace (plan : list (option exn)) (disk : FS)
    (export_dir : string) (as_text : bool) : list event :=
  log (snd (run_export plan disk export_dir as_text)).

(** ** Reading a trace *)

(** Calls that add an operation to the default graph. *)
Definition constructs_operation (ev : event) : bool :=
  match ev with
  | call_Variable _ | call_placeholder _ | call_parse_example | call_identity _
  | call_mul | call_add _ | call_initialize_all_variables => true
  | _ => false
  end.

(** The [name=] argument of a call, when the source gives one. *)
Definition explicit_name (ev : event) : option string :=
  match ev with
  | call_Variable n | call_placeholder n => Some n
  | call_identity n | call_add n => n
  | _ => None
  end.

Definition is_Session (ev : event) : bool :=
  match ev with call_Session => true | _ => false end.

Definition is_Session_enter (ev : event) : bool :=
  match ev with call_Session_enter => true | _ => false end.

Definition is_Session_exit (ev : event) : bool :=
  match ev with call_Session_exit => true | _ => false end.

Definition is_initialize (ev : event) : bool :=
  match ev with call_initialize_all_variables => true | _ => false end.

Definition is_Session_run (ev : event) : bool :=
  match ev with call_Session_run => true | _ => false end.

Definition is_add_meta_graph_and_variables (ev : event) : bool :=
  match ev with call_add_meta_graph_and_variables => true | _ => false end.

Definition is_save (ev : event) : bool :=
  match ev with call_save _ => true | _ => false end.

(** Methods called on the builder object. *)
Definition is_builder_method (ev : event) : bool :=
  is_add_meta_graph_and_variables ev || is_save ev.

Definition count (p : event -> bool) (t : list event) : nat :=
  length (filter (fun ev => p ev = true) t).

(** The step of the export a call belongs to: 1 open the computation
    context (line 49), 2 declare parameters and placeholder (52 to 56),
    3 decode the feature (60 to 63), 4 the affine transform (64), 5 the
    signature (68 to 76), 6 initialize and persist (79 to 83). Creating the
    builder and leaving the context are not among the six. *)
Definition step_of (ev : event) : option nat :=
  match ev with
  | call_Graph | call_Session | call_Session_enter => Some 1
  | call_Variable _ | call_placeholder _ => Some 2
  | call_parse_example | call_identity (Some _) => Some 3
  | call_mul | call_add _ => Some 4
  | call_TensorInfo | call_identity None | call_build_signature_def _ => Some 5
  | call_initialize_all_variables | call_Session_run
  | call_add_meta_graph_and_variables | call_save _ => Some 6
  | call_SavedModelBuilder _ | call_Session_exit => None
  end.

Fixpoint nondecreasing (l : list nat) : bool :=
  match l with
  | a :: (b :: _) as l' => (a <=? b)%nat && nondecreasing l'
  | _ => true
  end.

(** Every call satisfying [q] comes after some call satisfying [p]. *)
Fixpoint preceded_by (p q : event -> bool) (seen : bool) (t : list event) : bool :=
  match t with
  | [] => true
  | ev :: t' => (if q ev then seen else true) && preceded_by p q (seen || p ev) t'
  end.

(** Calls that work on the session or on its graph as the default graph. *)
Definition needs_session (ev : event) : bool :=
  constructs_operation ev || is_Session_run ev || is_add_meta_graph_and_variables ev.

(** Scanning a trace for the session scope: [inside] tells whether the scope
    is open. The scan fails when the scope is entered twice, left without
    having been entered, or when a call that needs the session occurs
    outside; otherwise it tells whether the scope is open at the end. *)
Fixpoint scope_scan (inside : bool) (t : list event) : option bool :=
  match t with
  | [] => Some inside
  | ev :: t' =>
      if is_Session_enter ev then
        (if inside then None else scope_scan true t')
      else if is_Session_exit ev then
        (if inside then scope_scan false t' else None)
      else if needs_session ev && negb inside then None
      else scope_scan inside t'
  end.

(** The exports a trace shows: the directory given to the builder and the
    encoding flag given to its [save]. *)
Fixpoint exports_of (dir : option string) (t : list event) : list (string * bool) :=
  match t with
  | [] => []
  | call_SavedModelBuilder d :: t' => exports_of (Some d) t'
  | call_save as_text :: t' =>
      match dir with
      | Some d => (d, as_text) :: exports_of None t'
      | None => exports_of None t'
      end
  | _ :: t' => exports_of dir t'
  end.

(** A feature holding exactly one floating-point value. *)
Definition single_float (f : option Feature) : bool :=
  match f with
  | Some (float_list [_]) => true
  | _ => false
  end.

(** A record the feature configuration of the script rejects. *)
Definition lacks_single_x (s : tfstring) : bool :=
  match s with
  | serialized_Example features => negb (single_float (features !! "x"))
  | raw_bytes _ => true
  end.

(** [y = a*x + b] on one element, with the kernels' arithmetic. *)
Definition half_plus_two (x : T) : T :=
  kernel_add (kernel_mul (float_lit (1 # 2)) x) (float_lit 2).

(** The trace of an export that got as far as call [k]: the calls up to
    and including that one, and the exit of the session scope when the
    scope had been entered. *)
Definition trace_upto (export_dir : string) (as_text : bool) (k : nat) : list event :=
  (take (S k) (nominal_trace export_dir as_text)
   ++ (if (4 <=? k)%nat then [call_Session_exit] else []))%list.

Definition scoped (t : list event) : bool :=
  match scope_scan false t with Some _ => true | None => false end.

(** What the decoding operation of the graph computes from a batch. *)
Definition decode_x (batch : list tfstring) : result (list (list T)) :=
  all_ok (map (parse_dense "x" (tf_FixedLenFeature [1] float32)) batch).

(** The meta graph found in an export directory. *)
Definition exported_meta_graph (w : world) (export_dir : string) : option MetaGraphDef :=
  match fs_read (fs w) export_dir with
  | Some b =>
      match saved_model b with
      | Some (_, mg :: _) => Some mg
      | _ => None
      end
  | None => None
  end.

(** The tensor a signature names under a role of its outputs. *)
Definition signature_output (mg : MetaGraphDef) (key role : string) : option string :=
  match signature_def mg !! key with
  | Some sd => ti_name <$> sig_outputs sd !! role
  | None => None
  end.

(** The two directories of [main]. *)
Definition main_dir_pb : string := "/tmp/saved_model/half_plus_two".
Definition main_dir_pbtxt : string := "/tmp/saved_model/half_plus_two_pbtxt".

(** What an export directory holds between the two builder calls: the
    checkpoint is written, the model file is the one found there, if any. *)
Definition checkpoint_only (disk : FS) (export_dir : string) : Bundle :=
  {| saved_model := saved_model (default empty_bundle (fs_read disk export_dir));
     variables := Some half_plus_two_checkpoint |}.

(** The file system a failed export leaves, by the call [k] that raised:
    nothing is written before [save] is called. *)
Definition fs_after_fault (disk : FS) (export_dir : string) (k : nat) : FS :=
  if (k <=? 17)%nat then disk
  else fs_write export_dir (checkpoint_only disk export_dir) disk.

(** ** Basic facts *)

Lemma written_eq disk export_dir as_text :
  written disk export_dir as_text = fs_write export_dir (exported_bundle as_text) disk.
Proof.
  unfold written. rewrite fs_read_write_eq. cbn [default variables].
  rewrite fs_write_write. reflexivity.
Qed.

(** Closing a goal by evaluation: the two sides of the equation are
    compared by the virtual machine when the proof is checked. *)
Ltac by_computation :=
  lazymatch goal with
  | |- True => exact I
  | |- ?a = ?b => vm_cast_no_check (@eq_refl _ b)
  end.

Ltac settle_case :=
  cbv zeta; cbn [first_fault]; repeat apply conj; cbn [Nat.leb]; by_computation.

(** Case analysis on the fault plan, one library call after the other;
    [fuel] is the number of calls left. *)
Ltac explore_plan plan fuel :=
  lazymatch fuel with
  | O => settle_case
  | S ?fuel' =>
      let e := fresh "e" in
      let plan' := fresh "plan" in
      destruct plan as [|[e|] plan'];
      [ settle_case | settle_case | explore_plan plan' fuel' ]
  end.

(** Every run of one export, whatever the library does: either none of
    the 19 calls raises and the world is the expected one, or the first
    raising call ends the run with that exception, after which only the
    session scope, if it had been entered, is left. *)
Lemma run_export_cases plan disk export_dir as_text :
  let r := run_export plan disk export_dir as_text in
  match first_fault plan 0 19 with
  | None =>
      r = (Ok tt, set_fs (written disk export_dir as_text)
                    (exported_world (drop 19 plan) disk export_dir as_text))
  | Some (k, e) =>
      fst r = Raise e /\
      log (snd r) = trace_upto export_dir as_text k /\
      faults (snd r) = drop (S k) plan /\
      (if (k <=? 17)%nat then fs (snd r) = disk else True) /\
      default_graph_stack (snd r) = [] /\
      default_session_stack (snd r) = [] /\
      (if (4 <=? k)%nat then forallb sess_closed (sessions (snd r)) = true else True)
  end.
Proof.
  explore_plan plan 19%nat.
Qed.

(** The second export of [main], started in the world the first one left. *)
Lemma second_export_cases plan disk :
  let r := _generate_saved_model_for_half_plus_two main_dir_pbtxt true
             (exported_world plan disk main_dir_pb false) in
  match first_fault plan 0 19 with
  | None =>
      fst r = Ok tt /\
      log (snd r) = (nominal_trace main_dir_pb false ++ nominal_trace main_dir_pbtxt true)%list /\
      faults (snd r) = drop 19 plan
  | Some (k, e) =>
      fst r = Raise e /\
      log (snd r) = (nominal_trace main_dir_pb false ++ trace_upto main_dir_pbtxt true k)%list /\
      faults (snd r) = drop (S k) plan
  end.
Proof.
  explore_plan plan 19%nat.
Qed.

Lemma first_fault_bounds plan from n k e :
  first_fault plan from n = Some (k, e) ->
  (from <= k < from + n)%nat /\ plan !! (k - from)%nat = Some (Some e)
  /\ take (k - from) plan = replicate (k - from) None.
Proof.
  revert plan from. induction n as [|n IH]; intros plan from Hf; [discriminate|].
  cbn [first_fault] in Hf. destruct plan as [|[e'|] plan']; [discriminate| |].
  - injection Hf as -> ->. replace (k - k)%nat with 0%nat by lia.
    split; [lia|]. split; reflexivity.
  - apply IH in Hf as (Hk & Hat & Hbefore).
    split; [lia|].
    replace (k - from)%nat with (S (k - S from)) by lia.
    split; [exact Hat|]. cbn. f_equal. exact Hbefore.
Qed.

Lemma first_fault_intro plan from n k e :
  (k < n)%nat ->
  take k plan = replicate k None ->
  plan !! k = Some (Some e) ->
  first_fault plan from n = Some ((from + k)%nat, e).
Proof.
  revert plan from n. induction k as [|k IH]; intros plan from n Hk Hbefore Hat.
  - destruct n as [|n]; [lia|]. destruct plan as [|o plan']; [discriminate|].
    cbn in Hat. injection Hat as ->. cbn. do 2 f_equal. lia.
  - destruct n as [|n]; [lia|]. destruct plan as [|o plan']; [discriminate|].
    cbn in Hbefore, Hat. injection Hbefore as -> Hbefore.
    cbn [first_fault]. rewrite (IH plan' (S from) n) by (lia || assumption).
    do 2 f_equal. lia.
Qed.

Lemma first_fault_shift plan from n :
  first_fault plan from n
  = match first_fault plan 0 n with
    | Some (k, e) => Some ((from + k)%nat, e)
    | None => None
    end.
Proof.
  revert plan from. induction n as [|n IH]; intros plan from; [reflexivity|].
  cbn [first_fault]. destruct plan as [|[e|] plan']; [reflexivity| |].
  - f_equal. f_equal. lia.
  - rewrite (IH plan' (S from)), (IH plan' 1%nat).
    destruct (first_fault plan' 0 n) as [[k e]|]; [|reflexivity].
    f_equal. f_equal. lia.
Qed.

Lemma first_fault_split plan from n m :
  first_fault plan from (n + m)
  = match first_fault plan from n with
    | Some ke => Some ke
    | None => first_fault (drop n plan) (from + n) m
    end.
Proof.
  revert plan from. induction n as [|n IH]; intros plan from.
  - cbn. rewrite Nat.add_0_r. reflexivity.
  - cbn [Nat.add first_fault]. destruct plan as [|[e|] plan'].
    + cbn. destruct m; reflexivity.
    + reflexivity.
    + rewrite IH. cbn [drop]. replace (S from + n)%nat with (from + S n)%nat by lia.
      reflexivity.
Qed.

Lemma run_export_ok plan disk export_dir as_text :
  first_fault plan 0 19 = None ->
  run_export plan disk export_dir as_text
  = (Ok tt, exported_world (drop 19 plan) disk export_dir as_text).
Proof.
  intros Hf. pose proof (run_export_cases plan disk export_dir as_text) as Hr.
  cbv zeta in Hr. rewrite Hf in Hr. rewrite Hr, written_eq. reflexivity.
Qed.

Lemma run_export_no_faults disk export_dir as_text :
  run_export no_faults disk export_dir as_text
  = (Ok tt, exported_world no_faults disk export_dir as_text).
Proof. exact (run_export_ok no_faults disk export_dir as_text eq_refl). Qed.

Lemma exported_bundle_on_disk disk export_dir as_text :
  fs_read (fs (snd (run_export no_faults disk export_dir as_text))) export_dir
  = Some (exported_bundle as_text).
Proof. rewrite run_export_no_faults. cbn [snd fs exported_world]. apply fs_read_write_eq. Qed.

(** The trace of every run is a truncation of the nominal one. *)
Lemma trace_shape plan disk export_dir as_text :
  exists k, (k < 19)%nat /\
    trace plan disk export_dir as_text = trace_upto export_dir as_text k.
Proof.
  pose proof (run_export_cases plan disk export_dir as_text) as Hr.
  cbv zeta in Hr. unfold trace.
  destruct (first_fault plan 0 19) as [[k e]|] eqn:Hf.
  - destruct Hr as (_ & Hlog & _).
    apply first_fault_bounds in Hf as (Hk & _). exists k. split; [lia|exact Hlog].
  - exists 18%nat. split; [lia|]. rewrite Hr. reflexivity.
Qed.

(** A check that passes on every truncation of the nominal trace passes on
    the trace of every run. *)
Lemma trace_check (check : list event -> bool) plan disk export_dir as_text :
  forallb (fun k => check (trace_upto export_dir as_text k)) (seq 0 19) = true ->
  check (trace plan disk export_dir as_text) = true.
Proof.
  intros Hall.
  destruct (trace_shape plan disk export_dir as_text) as (k & Hk & ->).
  rewrite forallb_forall in Hall. apply Hall. apply in_seq. lia.
Qed.

Lemma main_run plan disk argv :
  main argv (boot plan disk)
  = match run_export plan disk main_dir_pb false with
    | (Ok _, w) => _generate_saved_model_for_half_plus_two main_dir_pbtxt true w
    | (Raise e, w) => (Raise e, w)
    end.
Proof. reflexivity. Qed.

(** [main] as a whole: the first library call that raises, among the 38 of
    the two exports, ends the program with that exception. *)
Lemma main_propagates plan disk argv k e :
  first_fault plan 0 38 = Some (k, e) ->
  let r := main argv (boot plan disk) in
  fst r = Raise e /\ faults (snd r) = drop (S k) plan.
Proof.
  intros Hf. cbv zeta. rewrite main_run.
  change 38%nat with (19 + 19)%nat in Hf. rewrite first_fault_split in Hf.
  pose proof (run_export_cases plan disk main_dir_pb false) as H1.
  cbv zeta in H1.
  destruct (first_fault plan 0 19) as [[k1 e1]|] eqn:Hf1.
  - injection Hf as -> ->. destruct H1 as (Hres & _ & Hfaults & _).
    destruct (run_export plan disk main_dir_pb false) as [[[]|e'] w];
      cbn in Hres, Hfaults |- *; [discriminate|].
    injection Hres as ->. split; [reflexivity|exact Hfaults].
  - rewrite H1, written_eq. cbn [set_fs].
    change (set_fs _ _) with (exported_world (drop 19 plan) disk main_dir_pb false).
    pose proof (second_export_cases (drop 19 plan) disk) as H2. cbv zeta in H2.
    rewrite first_fault_shift in Hf.
    destruct (first_fault (drop 19 plan) 0 19) as [[k2 e2]|]; [|discriminate].
    injection Hf as <- ->. destruct H2 as (Hres & _ & Hfaults).
    split; [exact Hres|]. rewrite Hfaults, drop_drop. f_equal.
Qed.

(** ** Running the exported graph *)

Lemma find_meta_graph_serving (mg : MetaGraphDef) :
  meta_tags mg = [TAG_SERVING] -> find_meta_graph [TAG_SERVING] [mg] = Some mg.
Proof.
  intros Htags. unfold find_meta_graph. cbn [List.find].
  rewrite bool_decide_eq_true_2 by exact Htags. reflexivity.
Qed.

Lemma load_and_run_exported as_text feed_dict fetch_name :
  load_and_run (exported_bundle as_text) [TAG_SERVING] feed_dict fetch_name
  = match eval_graph half_plus_two_checkpoint feed_dict half_plus_two_nodes !! fetch_name with
    | Some r => r
    | None => Raise (ValueError "tensor is not an element of this graph")
    end.
Proof.
  unfold load_and_run, exported_bundle. cbn [saved_model variables].
  rewrite find_meta_graph_serving by reflexivity. reflexivity.
Qed.

Lemma run_signature_exported as_text input :
  run_signature (exported_bundle as_text) [TAG_SERVING] "regression" "input" "output" input
  = load_and_run (exported_bundle as_text) [TAG_SERVING]
      {["tf_example:0" := input]} "Identity:0".
Proof.
  unfold run_signature. cbn [saved_model exported_bundle].
  rewrite find_meta_graph_serving by reflexivity.
  cbn [signature_def half_plus_two_meta_graph]. rewrite lookup_singleton_eq.
  cbn [sig_inputs sig_outputs regression_signature]. rewrite !lookup_singleton_eq.
  reflexivity.
Qed.

(** The value of [y], for a batch of serialized records fed to the
    placeholder: every decoded element goes through [Mul] with [a], then
    through [Add] with [b]. *)
Lemma eval_y batch :
  eval_graph half_plus_two_checkpoint {["tf_example:0" := strings batch]} half_plus_two_nodes
    !! "y:0"
  = Some (result_map
            (fun rows => matrix (map (map (fun u => kernel_add u (float_lit 2)))
                                     (map (map (kernel_mul (float_lit (1 # 2)))) rows)))
            (decode_x batch)).
Proof.
  vm_compute.
  let S := eval vm_compute in (decode_x batch) in destruct S; reflexivity.
Qed.

(** The unnamed identity has the value of [y], whatever is fed. *)
Lemma eval_identity_y (feed_dict : gmap string value) :
  eval_graph half_plus_two_checkpoint feed_dict half_plus_two_nodes !! "Identity:0"
  = eval_graph half_plus_two_checkpoint feed_dict half_plus_two_nodes !! "y:0".
Proof. by_computation. Qed.

Lemma run_y as_text batch :
  load_and_run (exported_bundle as_text) [TAG_SERVING]
    {["tf_example:0" := strings batch]} "y:0"
  = result_map (fun rows => matrix (map (map half_plus_two) rows)) (decode_x batch).
Proof.
  rewrite load_and_run_exported, eval_y.
  destruct (decode_x batch) as [rows|e]; [|reflexivity].
  cbn [result_map]. do 2 f_equal. rewrite map_map.
  apply map_ext. intros row. rewrite map_map. reflexivity.
Qed.

Lemma all_ok_raise {A B} (f : A -> result B) (l : list A) (x : A) :
  x ∈ l -> is_Ok (f x) = false -> exists e, all_ok (map f l) = Raise e.
Proof.
  intros Hin Hbad. induction Hin as [x l|x y l Hin IH]; cbn [map all_ok].
  - destruct (f x) as [b|e0]; [discriminate Hbad|]. exists e0. reflexivity.
  - destruct (f y) as [b|e0]; [|exists e0; reflexivity].
    destruct (IH Hbad) as [e1 ->]. exists e1. reflexivity.
Qed.

Lemma parse_dense_single features (v : T) :
  features !! "x" = Some (float_list [v]) ->
  parse_dense "x" (tf_FixedLenFeature [1] float32) (serialized_Example features) = Ok [v].
Proof. intros Hx. unfold parse_dense. cbn. rewrite Hx. reflexivity. Qed.

Lemma parse_dense_rejects (s : tfstring) :
  lacks_single_x s = true ->
  is_Ok (parse_dense "x" (tf_FixedLenFeature [1] float32) s) = false.
Proof.
  destruct s as [features|bytes]; [|reflexivity].
  unfold lacks_single_x, single_float, parse_dense. cbn.
  destruct (features !! "x") as [[l| |]|]; try reflexivity.
  destruct l as [|v [|v' l]]; try reflexivity. discriminate.
Qed.


(** ** Output fidelity *)

(** C1: the bundle an export leaves in its directory, loaded and fed one
    serialized record whose feature "x" holds the single value [v], yields
    [y = a*v + b] with [a = 0.5] and [b = 2.0], for every [v], in the
    arithmetic of the kernels. *)
Theorem half_plus_two_output disk export_dir as_text
    (features : gmap string Feature) (v : T) :
  features !! "x" = Some (float_list [v]) ->
  let w := snd (run_export no_faults disk export_dir as_text) in
  exists bundle,
    fs_read (fs w) export_dir = Some bundle /\
    load_and_run bundle [TAG_SERVING]
      {["tf_example:0" := strings [serialized_Example features]]} "y:0"
    = Ok (matrix [[kernel_add (kernel_mul (float_lit (1 # 2)) v) (float_lit 2)]]).
Proof.
  intros Hx w. exists (exported_bundle as_text). split.
  - apply exported_bundle_on_disk.
  - rewrite run_y. unfold decode_x. cbn [map all_ok].
    rewrite (parse_dense_single features v Hx). reflexivity.
Qed.

(** C9: the tensor the signature names as "output" is produced by an
    operation of its own, an identity whose input is [y], so its name is
    not ["y:0"]; whatever is fed, fetching it gives what fetching [y]
    gives. *)
Theorem signature_output_identity_of_y disk export_dir as_text :
  let w := snd (run_export no_faults disk export_dir as_text) in
  exists bundle mg out op,
    fs_read (fs w) export_dir = Some bundle /\
    exported_meta_graph w export_dir = Some mg /\
    signature_output mg "regression" "output" = Some out /\
    out <> tensor_name (output "y" 0) /\
    find_op (graph_def mg) (op_name op) = Some op /\
    out = tensor_name (output (op_name op) 0) /\
    op_name op <> "y" /\
    op_type op = OpIdentity /\
    op_inputs op = [output "y" 0] /\
    (forall feed_dict,
       load_and_run bundle [TAG_SERVING] feed_dict out
       = load_and_run bundle [TAG_SERVING] feed_dict (tensor_name (output "y" 0))) /\
    (forall input,
       run_signature bundle [TAG_SERVING] "regression" "input" "output" input
       = load_and_run bundle [TAG_SERVING] {["tf_example:0" := input]}
           (tensor_name (output "y" 0))).
Proof.
  intros w. subst w.
  exists (exported_bundle as_text), half_plus_two_meta_graph, "Identity:0",
    {| op_name := "Identity"; op_type := OpIdentity; op_inputs := [output "y" 0] |}.
  split; [apply exported_bundle_on_disk|].
  split.
  { unfold exported_meta_graph. rewrite exported_bundle_on_disk. reflexivity. }
  split; [by_computation|].
  split; [discriminate|].
  split; [by_computation|].
  split; [by_computation|].
  split; [discriminate|].
  split; [reflexivity|].
  split; [reflexivity|].
  split.
  - intros feed_dict. change (tensor_name (output "y" 0)) with "y:0".
    rewrite !load_and_run_exported, eval_identity_y. reflexivity.
  - intros input. change (tensor_name (output "y" 0)) with "y:0".
    rewrite run_signature_exported, !load_and_run_exported, eval_identity_y.
    reflexivity.
Qed.

(** C10: the decoding operation of the exported graph is configured with
    the one feature "x", fixed length 1, float32, no default; a batch with
    a record that is not a serialized example, lacks "x", or holds under
    "x" anything but exactly one float, makes the run fail: an exception is
    returned and no output. *)
Theorem decoding_fails_without_single_x disk export_dir as_text
    (batch : list tfstring) :
  existsb lacks_single_x batch = true ->
  let w := snd (run_export no_faults disk export_dir as_text) in
  exists bundle mg,
    fs_read (fs w) export_dir = Some bundle /\
    exported_meta_graph w export_dir = Some mg /\
    op_type <$> find_op (graph_def mg) "ParseExample/ParseExample"
    = Some (OpParseExample
              [("x", {| fl_shape := [1]; fl_dtype := float32; fl_default_value := None |})]) /\
    (exists e, load_and_run bundle [TAG_SERVING]
                 {["tf_example:0" := strings batch]} "y:0" = Raise e) /\
    (exists e, run_signature bundle [TAG_SERVING] "regression" "input" "output"
                 (strings batch) = Raise e).
Proof.
  intros Hex w. subst w.
  apply existsb_exists in Hex as (s & Hin & Hbad). apply list_elem_of_In in Hin.
  exists (exported_bundle as_text), half_plus_two_meta_graph.
  split; [apply exported_bundle_on_disk|].
  split.
  { unfold exported_meta_graph. rewrite exported_bundle_on_disk. reflexivity. }
  split; [by_computation|].
  destruct (all_ok_raise (parse_dense "x" (tf_FixedLenFeature [1] float32)) batch s Hin
              (parse_dense_rejects s Hbad)) as [e He].
  assert (Hy : load_and_run (exported_bundle as_text) [TAG_SERVING]
                 {["tf_example:0" := strings batch]} "y:0" = Raise e).
  { rewrite run_y. unfold decode_x. rewrite He. reflexivity. }
  split; exists e; [exact Hy|].
  rewrite run_signature_exported, load_and_run_exported, eval_identity_y.
  rewrite load_and_run_exported in Hy. exact Hy.
Qed.

(** ** What is written *)

(** C3: for every directory and every encoding flag, an export in which
    the library raises nothing returns normally and leaves in that directory
    a bundle with the graph definition of the graph just built, the
    checkpoint of its two variables, and one signature, named "regression".
    The encoding is the one asked for. *)
Theorem export_writes_bundle disk export_dir as_text :
  let r := run_export no_faults disk export_dir as_text in
  fst r = Ok tt /\
  exists mg ckpt sd,
    fs_read (fs (snd r)) export_dir
    = Some {| saved_model := Some (if as_text then Text else Binary, [mg]);
              variables := Some ckpt |} /\
    nodes <$> graphs (snd r) !! 1%nat = Some (graph_def mg) /\
    graph_def mg = half_plus_two_nodes /\
    meta_tags mg = [TAG_SERVING] /\
    sess_vars <$> sessions (snd r) !! 0%nat = Some ckpt /\
    map_to_list ckpt = [("a", float_lit (1 # 2)); ("b", float_lit 2)] /\
    signature_def mg = {["regression" := sd]} /\
    sig_method_name sd = "regression".
Proof.
  intros r. subst r. rewrite run_export_no_faults. cbn [fst snd].
  split; [reflexivity|].
  exists half_plus_two_meta_graph, half_plus_two_checkpoint, regression_signature.
  split; [cbn [fs exported_world]; apply fs_read_write_eq|].
  repeat apply conj; by_computation.
Qed.

(** C4, as amended: the exported graph holds the five named entities with
    their construction-time values, beside four operations the data model
    does not list (the decoding operation, [Mul], an unnamed identity of
    [y], the initializer); the signature maps "input" to the tensor of the
    placeholder and "output" to the tensor of the unnamed identity. *)
Theorem graph_entities disk export_dir as_text :
  let w := snd (run_export no_faults disk export_dir as_text) in
  exists mg sd,
    exported_meta_graph w export_dir = Some mg /\
    op_name <$> graph_def mg
    = ["a"; "b"; "tf_example"; "ParseExample/ParseExample"; "x"; "Mul"; "y";
       "Identity"; "init"] /\
    find_op (graph_def mg) "a"
    = Some {| op_name := "a"; op_type := OpVariable (float_lit (1 # 2)); op_inputs := [] |} /\
    find_op (graph_def mg) "b"
    = Some {| op_name := "b"; op_type := OpVariable (float_lit 2); op_inputs := [] |} /\
    find_op (graph_def mg) "tf_example"
    = Some {| op_name := "tf_example"; op_type := OpPlaceholder tf_string; op_inputs := [] |} /\
    find_op (graph_def mg) "x"
    = Some {| op_name := "x"; op_type := OpIdentity;
              op_inputs := [output "ParseExample/ParseExample" 0] |} /\
    find_op (graph_def mg) "Mul"
    = Some {| op_name := "Mul"; op_type := OpMul; op_inputs := [output "a" 0; output "x" 0] |} /\
    find_op (graph_def mg) "y"
    = Some {| op_name := "y"; op_type := OpAdd; op_inputs := [output "Mul" 0; output "b" 0] |} /\
    find_op (graph_def mg) "Identity"
    = Some {| op_name := "Identity"; op_type := OpIdentity; op_inputs := [output "y" 0] |} /\
    signature_def mg = {["regression" := sd]} /\
    sig_inputs sd = {["input" := {| ti_name := tensor_name (output "tf_example" 0) |}]} /\
    sig_outputs sd = {["output" := {| ti_name := tensor_name (output "Identity" 0) |}]}.
Proof.
  intros w. subst w.
  exists half_plus_two_meta_graph, regression_signature.
  split.
  { unfold exported_meta_graph. rewrite exported_bundle_on_disk. reflexivity. }
  repeat apply conj; by_computation.
Qed.

(** ** The calls of an export *)

(** C5, as amended: in an export in which the library raises nothing, the
    script makes nine calls that construct an operation, five of them with
    an explicit name ([a], [b], [tf_example], [x], [y]); it creates one
    session and calls its [run] once; the builder methods it calls are
    [add_meta_graph_and_variables] and [save], once each, in that order. *)
Theorem export_call_counts disk export_dir as_text :
  let r := run_export no_faults disk export_dir as_text in
  let t := log (snd r) in
  count constructs_operation t = 9%nat /\
  omap explicit_name (filter (fun ev => constructs_operation ev = true) t)
  = ["a"; "b"; "tf_example"; "x"; "y"] /\
  length <$> (nodes <$> graphs (snd r) !! 1%nat) = Some 9%nat /\
  count is_Session t = 1%nat /\
  count is_Session_run t = 1%nat /\
  filter (fun ev => is_builder_method ev = true) t
  = [call_add_meta_graph_and_variables; call_save as_text].
Proof.
  intros r t. subst t r. rewrite run_export_no_faults. cbn [snd log exported_world].
  repeat apply conj; by_computation.
Qed.

(** C6: in every export, however far it gets, the calls come in the order
    of the six steps; no operation is constructed before the computation
    context is entered; the initializer is created before the session runs
    it, that run comes before [add_meta_graph_and_variables], which comes
    before [save]. When the library raises nothing, all six steps are
    there. *)
Theorem export_steps_in_order plan disk export_dir as_text :
  let t := trace plan disk export_dir as_text in
  nondecreasing (omap step_of t) = true /\
  preceded_by is_Session_enter constructs_operation false t = true /\
  preceded_by is_initialize is_Session_run false t = true /\
  preceded_by is_Session_run is_add_meta_graph_and_variables false t = true /\
  preceded_by is_add_meta_graph_and_variables is_save false t = true /\
  omap step_of (trace no_faults disk export_dir as_text)
  = [1; 1; 1; 2; 2; 2; 3; 3; 4; 4; 5; 5; 5; 5; 6; 6; 6; 6]%nat.
Proof.
  intros t. subst t. repeat apply conj.
  - apply (trace_check (fun t => nondecreasing (omap step_of t))). by_computation.
  - apply (trace_check (preceded_by is_Session_enter constructs_operation false)).
    by_computation.
  - apply (trace_check (preceded_by is_initialize is_Session_run false)). by_computation.
  - apply (trace_check (preceded_by is_Session_run is_add_meta_graph_and_variables false)).
    by_computation.
  - apply (trace_check (preceded_by is_add_meta_graph_and_variables is_save false)).
    by_computation.
  - unfold trace. rewrite run_export_no_faults. by_computation.
Qed.

(** C7: in every export the calls that need the session or its graph lie
    inside one session scope, at most one session is created and [run] is
    called at most once, and no session or graph is left as the default
    afterwards. When the library raises nothing: one session is created,
    its scope is entered once and left once, as the last call of the
    export; [run] is called exactly once, inside; the session ends
    closed. *)
Theorem session_scope plan disk export_dir as_text :
  let r := run_export plan disk export_dir as_text in
  let r0 := run_export no_faults disk export_dir as_text in
  scoped (log (snd r)) = true /\
  (count is_Session (log (snd r)) <= 1)%nat /\
  (count is_Session_run (log (snd r)) <= 1)%nat /\
  default_session_stack (snd r) = [] /\
  default_graph_stack (snd r) = [] /\
  scope_scan false (log (snd r0)) = Some false /\
  count is_Session (log (snd r0)) = 1%nat /\
  count is_Session_enter (log (snd r0)) = 1%nat /\
  count is_Session_exit (log (snd r0)) = 1%nat /\
  last (log (snd r0)) = Some call_Session_exit /\
  count is_Session_run (log (snd r0)) = 1%nat /\
  sess_closed <$> sessions (snd r0) = [true].
Proof.
  intros r r0.
  assert (Hstacks : default_session_stack (snd r) = [] /\ default_graph_stack (snd r) = []).
  { subst r. pose proof (run_export_cases plan disk export_dir as_text) as Hr.
    cbv zeta in Hr. destruct (first_fault plan 0 19) as [[k e]|].
    - destruct Hr as (_ & _ & _ & _ & Hg & Hs & _). split; assumption.
    - rewrite Hr. split; reflexivity. }
  destruct Hstacks as [Hs Hg].
  split; [apply (trace_check scoped); by_computation|].
  split.
  { apply Nat.leb_le.
    apply (trace_check (fun t => (count is_Session t <=? 1)%nat)). by_computation. }
  split.
  { apply Nat.leb_le.
    apply (trace_check (fun t => (count is_Session_run t <=? 1)%nat)). by_computation. }
  split; [exact Hs|]. split; [exact Hg|].
  subst r0. rewrite run_export_no_faults. cbn [snd].
  repeat apply conj; by_computation.
Qed.

(** C8: when call number [k] of an export is the first at which the
    library raises, with exception [e], the export returns [e] itself; the
    calls made are the ones up to that call and nothing after it but
    leaving the session scope; exactly [k + 1] entries of the plan have been
    used, so nothing was tried again; and what the file system held is
    untouched unless the checkpoint had been written already. *)
Theorem framework_error_propagates plan disk export_dir as_text k e :
  (k < 19)%nat ->
  take k plan = replicate k None ->
  plan !! k = Some (Some e) ->
  let r := run_export plan disk export_dir as_text in
  fst r = Raise e /\
  log (snd r) = trace_upto export_dir as_text k /\
  faults (snd r) = drop (S k) plan /\
  (if (k <=? 17)%nat then fs (snd r) = disk else True).
Proof.
  intros Hk Hbefore Hat r. subst r.
  pose proof (run_export_cases plan disk export_dir as_text) as Hr. cbv zeta in Hr.
  rewrite (first_fault_intro plan 0 19 k e Hk Hbefore Hat) in Hr. cbn [Nat.add] in Hr.
  destruct Hr as (Hres & Hlog & Hfaults & Hfs & _).
  repeat split; assumption.
Qed.

(** ** The entry point *)

(** C2: [main] does not look at its argument; when the library raises
    nothing it returns normally after exactly two exports, the first to
    ["/tmp/saved_model/half_plus_two"] in binary encoding, the second to
    ["/tmp/saved_model/half_plus_two_pbtxt"] in text encoding. *)
Theorem main_two_exports argv disk :
  let r := main argv (boot no_faults disk) in
  main argv = main [] /\
  fst r = Ok tt /\
  log (snd r) = (nominal_trace "/tmp/saved_model/half_plus_two" false
                 ++ nominal_trace "/tmp/saved_model/half_plus_two_pbtxt" true)%list /\
  exports_of None (log (snd r))
  = [("/tmp/saved_model/half_plus_two", false);
     ("/tmp/saved_model/half_plus_two_pbtxt", true)] /\
  count is_save (log (snd r)) = 2%nat /\
  fs (snd r) = fs_write "/tmp/saved_model/half_plus_two_pbtxt" (exported_bundle true)
                 (fs_write "/tmp/saved_model/half_plus_two" (exported_bundle false) disk) /\
  saved_model (exported_bundle false) = Some (Binary, [half_plus_two_meta_graph]) /\
  saved_model (exported_bundle true) = Some (Text, [half_plus_two_meta_graph]).
Proof.
  intros r. subst r. split; [reflexivity|].
  do 4 (split; [by_computation|]).
  split; [|split; reflexivity].
  transitivity (written (fs_write main_dir_pb (exported_bundle false) disk)
                  main_dir_pbtxt true).
  - rewrite <- (written_eq disk main_dir_pb false). by_computation.
  - apply written_eq.
Qed.

(** ** Further properties of the export and of [main] *)

(** The state a failed export leaves, beside what [run_export_cases]
    tells. *)
Lemma run_export_fault_state plan disk export_dir as_text :
  let r := run_export plan disk export_dir as_text in
  match first_fault plan 0 19 with
  | None => True
  | Some (k, e) =>
      graphs (snd r) !! 0%nat = Some empty_graph /\
      fs (snd r) = fs_after_fault disk export_dir k
  end.
Proof.
  explore_plan plan 19%nat.
Qed.

Lemma second_export_fault_state plan disk :
  let r := _generate_saved_model_for_half_plus_two main_dir_pbtxt true
             (exported_world plan disk main_dir_pb false) in
  match first_fault plan 0 19 with
  | None => True
  | Some (k, e) =>
      fs (snd r)
      = fs_after_fault (fs_write main_dir_pb (exported_bundle false) disk) main_dir_pbtxt k
  end.
Proof.
  explore_plan plan 19%nat.
Qed.

Lemma first_fault_none_intro plan from n :
  take n plan = replicate n None -> first_fault plan from n = None.
Proof.
  revert plan from. induction n as [|n IH]; intros plan from Hn; [reflexivity|].
  destruct plan as [|o plan']; [discriminate|].
  cbn in Hn. injection Hn as -> Hn. cbn [first_fault]. apply IH, Hn.
Qed.

Lemma fs_after_fault_other disk export_dir k d :
  d <> export_dir ->
  fs_read (fs_after_fault disk export_dir k) d = fs_read disk d.
Proof.
  intros Hd. unfold fs_after_fault. destruct (k <=? 17)%nat; [reflexivity|].
  apply fs_read_write_ne. congruence.
Qed.

Lemma main_dirs_differ : main_dir_pb <> main_dir_pbtxt.
Proof. discriminate. Qed.

(** The export never adds an operation to the process-wide default graph:
    whatever the library does, graph 0 is as empty after the export as it was
    before. *)
Theorem export_leaves_default_graph_empty plan disk export_dir as_text :
  graphs (snd (run_export plan disk export_dir as_text)) !! 0%nat = Some empty_graph.
Proof.
  pose proof (run_export_cases plan disk export_dir as_text) as Hr.
  pose proof (run_export_fault_state plan disk export_dir as_text) as Hs.
  cbv zeta in Hr, Hs.
  destruct (first_fault plan 0 19) as [[k e]|].
  - apply Hs.
  - rewrite Hr. reflexivity.
Qed.


(** The export is not atomic: when [save] is the call that raises, the
    checkpoint is already in the directory, while the model file there is
    still the one found before, if any. *)
Theorem failed_save_leaves_checkpoint plan disk export_dir as_text e :
  take 18 plan = replicate 18 None ->
  plan !! 18%nat = Some (Some e) ->
  let r := run_export plan disk export_dir as_text in
  fst r = Raise e /\
  fs_read (fs (snd r)) export_dir
  = Some {| saved_model := saved_model (default empty_bundle (fs_read disk export_dir));
            variables := Some half_plus_two_checkpoint |}.
Proof.
  intros Hbefore Hat r. subst r.
  pose proof (run_export_cases plan disk export_dir as_text) as Hr.
  pose proof (run_export_fault_state plan disk export_dir as_text) as Hs.
  cbv zeta in Hr, Hs.
  rewrite (first_fault_intro plan 0 19 18 e) in Hr, Hs by (lia || assumption).
  cbn [Nat.add] in Hr, Hs. destruct Hr as [Hres _]. destruct Hs as [_ Hfs].
  split; [exact Hres|]. rewrite Hfs. unfold fs_after_fault. cbn [Nat.leb].
  apply fs_read_write_eq.
Qed.

(** When a call of the first export raises, [main] ends with that
    exception and the second export is never begun: the trace is the one of
    the first export alone, and the second directory reads as before. *)
Theorem main_stops_at_first_export_failure plan disk argv k e :
  (k < 19)%nat ->
  take k plan = replicate k None ->
  plan !! k = Some (Some e) ->
  let r := main argv (boot plan disk) in
  fst r = Raise e /\
  log (snd r) = trace_upto "/tmp/saved_model/half_plus_two" false k /\
  fs_read (fs (snd r)) "/tmp/saved_model/half_plus_two_pbtxt"
  = fs_read disk "/tmp/saved_model/half_plus_two_pbtxt".
Proof.
  intros Hk Hbefore Hat r. subst r. rewrite main_run.
  pose proof (run_export_cases plan disk main_dir_pb false) as Hr.
  pose proof (run_export_fault_state plan disk main_dir_pb false) as Hs.
  cbv zeta in Hr, Hs.
  rewrite (first_fault_intro plan 0 19 k e Hk Hbefore Hat) in Hr, Hs.
  cbn [Nat.add] in Hr, Hs.
  destruct Hr as (Hres & Hlog & _). destruct Hs as [_ Hfs].
  destruct (run_export plan disk main_dir_pb false) as [[[]|e'] w];
    cbn [fst snd] in *; [discriminate|].
  injection Hres as ->. split; [reflexivity|].
  split; [exact Hlog|].
  rewrite Hfs. apply fs_after_fault_other. apply not_eq_sym, main_dirs_differ.
Qed.

Lemma plan_after_first_export plan k e :
  take (19 + k) plan = replicate (19 + k) None ->
  plan !! (19 + k)%nat = Some (Some e) ->
  first_fault plan 0 19 = None /\
  take k (drop 19 plan) = replicate k None /\
  drop 19 plan !! k = Some (Some e).
Proof.
  intros Hbefore Hat.
  rewrite <- take_take_drop, replicate_add in Hbefore.
  apply app_inj_1 in Hbefore as [H19 Hk].
  - split; [apply first_fault_none_intro, H19|].
    split; [exact Hk|]. rewrite lookup_drop. exact Hat.
  - rewrite length_replicate. apply length_take_le.
    apply lookup_lt_Some in Hat. lia.
Qed.

(** When a call of the second export raises, [main] ends with that
    exception; the bundle of the first export stays complete in its
    directory, and no model file is written to the second directory. *)
Theorem main_second_export_failure_keeps_first plan disk argv k e :
  (k < 19)%nat ->
  take (19 + k) plan = replicate (19 + k) None ->
  plan !! (19 + k)%nat = Some (Some e) ->
  let r := main argv (boot plan disk) in
  fst r = Raise e /\
  log (snd r) = (nominal_trace "/tmp/saved_model/half_plus_two" false
                 ++ trace_upto "/tmp/saved_model/half_plus_two_pbtxt" true k)%list /\
  fs_read (fs (snd r)) "/tmp/saved_model/half_plus_two" = Some (exported_bundle false) /\
  saved_model (default empty_bundle
                 (fs_read (fs (snd r)) "/tmp/saved_model/half_plus_two_pbtxt"))
  = saved_model (default empty_bundle
                   (fs_read disk "/tmp/saved_model/half_plus_two_pbtxt")).
Proof.
  intros Hk Hbefore Hat r. subst r. rewrite main_run.
  destruct (plan_after_first_export plan k e Hbefore Hat) as (H19 & Hbefore' & Hat').
  rewrite (run_export_ok plan disk main_dir_pb false H19).
  pose proof (second_export_cases (drop 19 plan) disk) as Hr.
  pose proof (second_export_fault_state (drop 19 plan) disk) as Hs.
  cbv zeta in Hr, Hs.
  rewrite (first_fault_intro (drop 19 plan) 0 19 k e Hk Hbefore' Hat') in Hr, Hs.
  cbn [Nat.add] in Hr, Hs. destruct Hr as (Hres & Hlog & _).
  split; [exact Hres|]. split; [exact Hlog|].
  change "/tmp/saved_model/half_plus_two" with main_dir_pb.
  change "/tmp/saved_model/half_plus_two_pbtxt" with main_dir_pbtxt.
  rewrite Hs. unfold fs_after_fault. destruct (k <=? 17)%nat.
  - rewrite fs_read_write_eq.
    rewrite (fs_read_write_ne main_dir_pb main_dir_pbtxt) by apply main_dirs_differ.
    split; reflexivity.
  - rewrite (fs_read_write_ne main_dir_pbtxt main_dir_pb)
      by apply not_eq_sym, main_dirs_differ.
    rewrite !fs_read_write_eq. unfold checkpoint_only. cbn [default saved_model].
    rewrite (fs_read_write_ne main_dir_pb main_dir_pbtxt) by apply main_dirs_differ.
    split; reflexivity.
Qed.

Lemma main_fs_no_faults argv disk :
  fs (snd (main argv (boot no_faults disk)))
  = fs_write main_dir_pbtxt (exported_bundle true)
      (fs_write main_dir_pb (exported_bundle false) disk).
Proof.
  transitivity (written (fs_write main_dir_pb (exported_bundle false) disk)
                  main_dir_pbtxt true).
  - rewrite <- (written_eq disk main_dir_pb false). by_computation.
  - apply written_eq.
Qed.

(** Each export of [main] builds its graph afresh, so the second one
    meets no name of the first: the two directories end up with the same
    meta graphs and the same checkpoint, and differ in the encoding only. *)
Theorem main_bundles_differ_in_encoding_only argv disk :
  let w := snd (main argv (boot no_faults disk)) in
  exists mgs ckpt,
    fs_read (fs w) "/tmp/saved_model/half_plus_two"
    = Some {| saved_model := Some (Binary, mgs); variables := Some ckpt |} /\
    fs_read (fs w) "/tmp/saved_model/half_plus_two_pbtxt"
    = Some {| saved_model := Some (Text, mgs); variables := Some ckpt |} /\
    nodes <$> graphs w !! 1%nat = nodes <$> graphs w !! 2%nat /\
    length (graphs w) = 3%nat.
Proof.
  intros w. subst w. exists [half_plus_two_meta_graph], half_plus_two_checkpoint.
  rewrite main_fs_no_faults.
  split.
  { rewrite (fs_read_write_ne main_dir_pbtxt main_dir_pb)
      by apply not_eq_sym, main_dirs_differ.
    apply fs_read_write_eq. }
  split; [apply fs_read_write_eq|].
  split; by_computation.
Qed.

(** ** Further properties of the exported graph *)


Lemma decode_x_records (fms : list (gmap string Feature)) (vs : list T) :
  map (fun fm => fm !! "x") fms = map (fun v => Some (float_list [v])) vs ->
  decode_x (serialized_Example <$> fms) = Ok ((fun v => [v]) <$> vs).
Proof.
  unfold decode_x. revert vs. induction fms as [|fm fms IH]; intros [|v vs] Hx;
    try discriminate; [reflexivity|].
  cbn in Hx. injection Hx as Hfm Hx.
  cbn [fmap list_fmap map all_ok].
  rewrite (parse_dense_single fm v Hfm).
  change (map (parse_dense "x" (tf_FixedLenFeature [1] float32))
              (list_fmap _ _ serialized_Example fms))
    with (map (parse_dense "x" (tf_FixedLenFeature [1] float32))
              (serialized_Example <$> fms)).
  rewrite (IH vs Hx). reflexivity.
Qed.

(** Serving the signature on a batch works record by record: when every
    record holds exactly one float under "x", the output has one row per
    record, in order, holding [a*x + b] for that record's value; an empty
    batch gives an empty output. *)
Theorem served_batch_is_elementwise disk export_dir as_text
    (fms : list (gmap string Feature)) (vs : list T) :
  map (fun fm => fm !! "x") fms = map (fun v => Some (float_list [v])) vs ->
  let w := snd (run_export no_faults disk export_dir as_text) in
  exists bundle,
    fs_read (fs w) export_dir = Some bundle /\
    run_signature bundle [TAG_SERVING] "regression" "input" "output"
      (strings (serialized_Example <$> fms))
    = Ok (matrix ((fun v => [half_plus_two v]) <$> vs)).
Proof.
  intros Hx w. subst w. exists (exported_bundle as_text).
  split; [apply exported_bundle_on_disk|].
  rewrite run_signature_exported, load_and_run_exported, eval_identity_y.
  rewrite <- (load_and_run_exported as_text), run_y, (decode_x_records fms vs Hx).
  cbn [result_map]. do 2 f_equal. rewrite map_map. reflexivity.
Qed.


End Framework.

(** ** Exact arithmetic over the reals *)

(** With real numbers as elements and exact multiplication and addition,
    the output for a record holding [v] is the real number [0.5 * v + 2]. *)
Lemma half_plus_two_output_real (TAG_SERVING : string) {FS : Type} `{HFS : FileSystem R FS}
    (disk : FS) export_dir as_text (features : gmap string Feature) (v : R) :
  features !! "x" = Some (float_list [v]) ->
  exists bundle,
    fs_read (fs (snd (run_export TAG_SERVING no_faults disk export_dir as_text))) export_dir
    = Some bundle /\
    load_and_run bundle [TAG_SERVING]
      {["tf_example:0" := strings [serialized_Example features]]} "y:0"
    = Ok (matrix [[(0.5 * v + 2)%R]]).
Proof.
  intros Hx. exists (exported_bundle TAG_SERVING as_text).
  split; [apply exported_bundle_on_disk|].
  rewrite run_y. unfold decode_x. cbn [map all_ok].
  rewrite (parse_dense_single features v Hx). cbn [result_map map].
  do 4 f_equal. unfold half_plus_two. cbn [kernel_add kernel_mul float_lit R_kernels].
  unfold Q2R. cbn [Qnum Qden]. lra.
Qed.

(** ** Instances at concrete inputs

    The kernels are exact rational arithmetic, the serving tag is ["serve"],
    the file system is a finite map that starts empty. *)

Lemma half_plus_two_output_witness :
  ({["x" := float_list [3%Q]]} : gmap string (Feature (T := Q))) !! "x" = Some (float_list [3%Q]) /\
  exists bundle,
    fs_read (fs (snd (run_export "serve" no_faults (∅ : gmap string (Bundle (T := Q)))
                        "/tmp/saved_model/half_plus_two" false)))
            "/tmp/saved_model/half_plus_two" = Some bundle /\
    load_and_run bundle ["serve"]
      {["tf_example:0" := strings [serialized_Example {["x" := float_list [3%Q]]}]]} "y:0"
    = Ok (matrix [[(7 # 2)%Q]]).
Proof.
  split; [reflexivity|].
  exact (half_plus_two_output "serve" (∅ : gmap string (Bundle (T := Q)))
           "/tmp/saved_model/half_plus_two" false {["x" := float_list [3%Q]]} 3%Q
           eq_refl).
Defined.

Lemma decoding_fails_without_single_x_witness :
  existsb lacks_single_x
    [serialized_Example ({["z" := float_list [1%Q]]} : gmap string (Feature (T := Q)))] = true /\
  exists bundle mg,
    fs_read (fs (snd (run_export "serve" no_faults (∅ : gmap string (Bundle (T := Q)))
                        "/tmp/saved_model/half_plus_two" false)))
            "/tmp/saved_model/half_plus_two" = Some bundle /\
    exported_meta_graph
      (snd (run_export "serve" no_faults (∅ : gmap string (Bundle (T := Q)))
              "/tmp/saved_model/half_plus_two" false))
      "/tmp/saved_model/half_plus_two" = Some mg /\
    op_type <$> find_op (graph_def mg) "ParseExample/ParseExample"
    = Some (OpParseExample
              [("x", {| fl_shape := [1%nat]; fl_dtype := float32;
                        fl_default_value := None |})]) /\
    (exists e, load_and_run bundle ["serve"]
                 {["tf_example:0" :=
                     strings [serialized_Example {["z" := float_list [1%Q]]}]]} "y:0"
               = Raise e) /\
    (exists e, run_signature bundle ["serve"] "regression" "input" "output"
                 (strings [serialized_Example {["z" := float_list [1%Q]]}]) = Raise e).
Proof.
  split; [reflexivity|].
  apply (decoding_fails_without_single_x "serve" (∅ : gmap string (Bundle (T := Q)))
           "/tmp/saved_model/half_plus_two" false
           [serialized_Example {["z" := float_list [1%Q]]}]).
  reflexivity.
Defined.

Lemma framework_error_propagates_witness :
  (17 < 19)%nat /\
  take 17 (replicate 17 None ++ [Some (OSError "unwritable directory")])%list
  = replicate 17 (None : option exn) /\
  (replicate 17 None ++ [Some (OSError "unwritable directory")])%list !! 17%nat
  = Some (Some (OSError "unwritable directory")) /\
  let r := run_export (T := Q) "serve"
             (replicate 17 None ++ [Some (OSError "unwritable directory")])%list
             (∅ : gmap string (Bundle (T := Q))) "/tmp/saved_model/half_plus_two" false in
  fst r = Raise (OSError "unwritable directory") /\
  log (snd r) = trace_upto "/tmp/saved_model/half_plus_two" false 17 /\
  faults (snd r)
  = drop 18 (replicate 17 None ++ [Some (OSError "unwritable directory")])%list /\
  (if (17 <=? 17)%nat then fs (snd r) = ∅ else True).
Proof.
  split; [lia|]. split; [reflexivity|]. split; [reflexivity|].
  apply (framework_error_propagates (T := Q) "serve"
           (replicate 17 None ++ [Some (OSError "unwritable directory")])%list
           (∅ : gmap string (Bundle (T := Q))) "/tmp/saved_model/half_plus_two" false 17
           (OSError "unwritable directory")).
  - lia.
  - reflexivity.
  - reflexivity.
Defined.

(** C4, as stated, fails on the export to the first directory of [main]:
    the operations of the exported graph are not just the five entities the
    data model lists, and the tensor the signature names as "output" is not
    the tensor of [y]. *)
Lemma graph_entities_counterexample :
  match exported_meta_graph
          (snd (run_export (T := Q) "serve" no_faults (∅ : gmap string (Bundle (T := Q)))
                  "/tmp/saved_model/half_plus_two" false))
          "/tmp/saved_model/half_plus_two" with
  | Some mg =>
      op_name <$> graph_def mg <> ["a"; "b"; "tf_example"; "x"; "y"] /\
      signature_output mg "regression" "output" <> Some (tensor_name (output "y" 0))
  | None => False
  end.
Proof. vm_compute. split; discriminate. Qed.

(** C5, as stated, fails on the export to the first directory of [main]:
    the calls that construct an operation are not five. *)
Lemma export_call_counts_counterexample :
  count constructs_operation
    (trace (T := Q) "serve" no_faults (∅ : gmap string (Bundle (T := Q)))
       "/tmp/saved_model/half_plus_two" false) <> 5%nat.
Proof. vm_compute. discriminate. Qed.

(** ** Instances of the further properties *)


Lemma failed_save_leaves_checkpoint_witness :
  take 18 (replicate 18 None ++ [Some (OSError "no space left")])%list
  = replicate 18 (None : option exn) /\
  (replicate 18 None ++ [Some (OSError "no space left")])%list !! 18%nat
  = Some (Some (OSError "no space left")) /\
  let r := run_export (T := Q) "serve"
             (replicate 18 None ++ [Some (OSError "no space left")])%list
             (∅ : gmap string (Bundle (T := Q))) "/tmp/saved_model/half_plus_two" false in
  fst r = Raise (OSError "no space left") /\
  fs_read (fs (snd r)) "/tmp/saved_model/half_plus_two"
  = Some {| saved_model :=
              saved_model (default empty_bundle
                             (fs_read (∅ : gmap string (Bundle (T := Q)))
                                "/tmp/saved_model/half_plus_two"));
            variables := Some half_plus_two_checkpoint |}.
Proof.
  split; [reflexivity|]. split; [reflexivity|].
  apply (failed_save_leaves_checkpoint (T := Q) "serve"
           (replicate 18 None ++ [Some (OSError "no space left")])%list
           (∅ : gmap string (Bundle (T := Q))) "/tmp/saved_model/half_plus_two" false
           (OSError "no space left")).
  - reflexivity.
  - reflexivity.
Defined.

Lemma main_stops_at_first_export_failure_witness :
  (4 < 19)%nat /\
  take 4 (replicate 4 None ++ [Some (RuntimeError "out of memory")])%list
  = replicate 4 (None : option exn) /\
  (replicate 4 None ++ [Some (RuntimeError "out of memory")])%list !! 4%nat
  = Some (Some (RuntimeError "out of memory")) /\
  let r := main (T := Q) "serve" []
             (boot (replicate 4 None ++ [Some (RuntimeError "out of memory")])%list
                   (∅ : gmap string (Bundle (T := Q)))) in
  fst r = Raise (RuntimeError "out of memory") /\
  log (snd r) = trace_upto "/tmp/saved_model/half_plus_two" false 4 /\
  fs_read (fs (snd r)) "/tmp/saved_model/half_plus_two_pbtxt"
  = fs_read (∅ : gmap string (Bundle (T := Q))) "/tmp/saved_model/half_plus_two_pbtxt".
Proof.
  split; [lia|]. split; [reflexivity|]. split; [reflexivity|].
  apply (main_stops_at_first_export_failure (T := Q) "serve"
           (replicate 4 None ++ [Some (RuntimeError "out of memory")])%list
           (∅ : gmap string (Bundle (T := Q))) [] 4 (RuntimeError "out of memory")).
  - lia.
  - reflexivity.
  - reflexivity.
Defined.

Lemma main_second_export_failure_keeps_first_witness :
  (17 < 19)%nat /\
  take (19 + 17) (replicate 36 None ++ [Some (OSError "unwritable directory")])%list
  = replicate (19 + 17) (None : option exn) /\
  (replicate 36 None ++ [Some (OSError "unwritable directory")])%list !! (19 + 17)%nat
  = Some (Some (OSError "unwritable directory")) /\
  let r := main (T := Q) "serve" []
             (boot (replicate 36 None ++ [Some (OSError "unwritable directory")])%list
                   (∅ : gmap string (Bundle (T := Q)))) in
  fst r = Raise (OSError "unwritable directory") /\
  log (snd r) = (nominal_trace "/tmp/saved_model/half_plus_two" false
                 ++ trace_upto "/tmp/saved_model/half_plus_two_pbtxt" true 17)%list /\
  fs_read (fs (snd r)) "/tmp/saved_model/half_plus_two" = Some (exported_bundle "serve" false) /\
  saved_model (default empty_bundle
                 (fs_read (fs (snd r)) "/tmp/saved_model/half_plus_two_pbtxt"))
  = saved_model (default empty_bundle
                   (fs_read (∅ : gmap string (Bundle (T := Q)))
                      "/tmp/saved_model/half_plus_two_pbtxt")).
Proof.
  split; [lia|]. split; [reflexivity|]. split; [reflexivity|].
  apply (main_second_export_failure_keeps_first (T := Q) "serve"
           (replicate 36 None ++ [Some (OSError "unwritable directory")])%list
           (∅ : gmap string (Bundle (T := Q))) [] 17 (OSError "unwritable directory")).
  - lia.
  - reflexivity.
  - reflexivity.
Defined.

Lemma served_batch_is_elementwise_witness :
  map (fun fm : gmap string (Feature (T := Q)) => fm !! "x")
      [ {["x" := float_list [3%Q]]}; {["x" := float_list [0%Q]; "z" := bytes_list ["k"] ]} ]
  = map (fun v => Some (float_list [v])) [3%Q; 0%Q] /\
  exists bundle,
    fs_read (fs (snd (run_export "serve" no_faults (∅ : gmap string (Bundle (T := Q)))
                        "/tmp/saved_model/half_plus_two" false)))
            "/tmp/saved_model/half_plus_two" = Some bundle /\
    run_signature bundle ["serve"] "regression" "input" "output"
      (strings (serialized_Example <$>
                  [ {["x" := float_list [3%Q]]};
                    {["x" := float_list [0%Q]; "z" := bytes_list ["k"] ]} ]))
    = Ok (matrix ((fun v => [half_plus_two v]) <$> [3%Q; 0%Q])).
Proof.
  split; [reflexivity|].
  apply (served_batch_is_elementwise (T := Q) "serve" (∅ : gmap string (Bundle (T := Q)))
           "/tmp/saved_model/half_plus_two" false
           [ {["x" := float_list [3%Q]]}; {["x" := float_list [0%Q]; "z" := bytes_list ["k"] ]} ]
           [3%Q; 0%Q]).
  reflexivity.
Defined.


